(** * supercapacitors: registration metadata and example notebook

    The repository under study is a PyBaMM plug-in package.  The sources
    available are its packaging metadata ([pyproject.toml]) and the
    example notebook [examples/supercapacitor.ipynb].  This development
    embeds the metadata as Rocq data, the reading of an entry point
    ([group], [name], [module:attr]) as functions over that data, and the
    notebook's code cells as a small Python syntax tree. *)

From Stdlib Require Import String Ascii List Bool Arith Lia.
From Stdlib Require DecimalString.
Import ListNotations.
Open Scope string_scope.

Set Warnings "-register-all".

(** ** Packaging metadata *)

Module Pyproject.

(** [[project] name]. *)
Definition name : string := "supercapacitors".

(** [[build-system] requires]. *)
Definition requires : list string := ["hatchling"].

(** [[project] dependencies]: the runtime requirements. *)
Definition dependencies : list string := ["pybamm"].

(** [[project.optional-dependencies]]: the extras [dev] and [docs]. *)
Definition optional_dependencies : list (string * list string) :=
  [ ("dev", ["pytest >=6"; "pytest-cov >=3"; "nox[uv]"; "pre-commit"]);
    ("docs", ["sphinx"; "pydata_sphinx_theme"; "sphinx_design";
              "sphinx-copybutton"; "myst-parser"; "sphinx-inline-tabs";
              "sphinxcontrib-bibtex"; "sphinx-autobuild";
              "sphinx-last-updated-by-git"; "nbsphinx"; "ipython";
              "sphinx-gallery"]) ].

(** [[project.entry-points."parameter_sets"]], in file order. *)
Definition parameter_sets : list (string * string) :=
  [ ("Chen2020",
     "supercapacitors.parameters.input.Chen2020:get_parameter_values");
    ("Verbrugge2005",
     "supercapacitors.parameters.input.Verbrugge2005:get_parameter_values");
    ("Iamrod2024",
     "supercapacitors.parameters.input.Iamrod2024:get_parameter_values") ].

(** [[project.entry-points."models"]], in file order. *)
Definition models : list (string * string) :=
  [ ("SPM", "supercapacitors.models.input.SPM:SPM");
    ("BasicReservoir",
     "supercapacitors.models.input.BasicReservoir:BasicReservoir");
    ("VerbruggeLiu",
     "supercapacitors.models.input.VerbruggeLiu:VerbruggeLiu") ].

(** [[project.entry-points]]: every group the file declares. *)
Definition entry_points : list (string * list (string * string)) :=
  [ ("parameter_sets", parameter_sets); ("models", models) ].

(** The header of every table of the file, in file order (the quoted
    keys of the two entry-point groups written bare). *)
Definition tables : list string :=
  [ "build-system"; "project"; "project.optional-dependencies";
    "project.urls"; "project.entry-points.parameter_sets";
    "project.entry-points.models"; "tool.hatch"; "tool.hatch.version";
    "tool.hatch.build.targets.wheel"; "tool.coverage"; "tool.ruff" ].

(** [[tool.hatch.build.targets.wheel] packages]: what the wheel ships. *)
Definition wheel_packages : list string := ["src/supercapacitors"].

End Pyproject.

(** ** Entry points as the discovery mechanism reads them *)

Module EntryPoints.

(** Installed metadata: every group with its [name = value] entries. *)
Definition registry : Type := list (string * list (string * string)).

(** First value bound to a key of a table. *)
Fixpoint lookup {A : Type} (k : string) (t : list (string * A)) : option A :=
  match t with
  | [] => None
  | (k', v) :: rest => if String.eqb k k' then Some v else lookup k rest
  end.

Definition keys {A : Type} (t : list (string * A)) : list string :=
  map fst t.

Fixpoint has_colon (s : string) : bool :=
  match s with
  | EmptyString => false
  | String c rest => if Ascii.eqb c ":" then true else has_colon rest
  end.

(** An entry-point value [module:attr] is cut at its first colon.  The
    values of this repository are a dotted path of identifiers, one colon
    and one identifier, without blanks or extras; the cut is meant for
    values of that shape only. *)
Fixpoint break_colon (s : string) : option (string * string) :=
  match s with
  | EmptyString => None
  | String c rest =>
      if Ascii.eqb c ":" then Some (EmptyString, rest)
      else match break_colon rest with
           | Some (m, a) => Some (String c m, a)
           | None => None
           end
  end.

Record target := { module : string; attr : string }.

(** The object reference of a value: both parts must be present. *)
Definition parse (v : string) : option target :=
  match break_colon v with
  | Some (EmptyString, _) => None
  | Some (_, EmptyString) => None
  | Some (m, a) => Some {| module := m; attr := a |}
  | None => None
  end.

Section Discovery.

Variable r : registry.

(** The entries a group declares; an undeclared group has none. *)
Definition group (g : string) : list (string * string) :=
  match lookup g r with
  | Some t => t
  | None => []
  end.

Definition names (g : string) : list string := keys (group g).

Definition registered (g n : string) : bool :=
  if in_dec string_dec n (names g) then true else false.

(** The target registered in group [g] under name [n]. *)
Definition resolve (g n : string) : option target :=
  match lookup n (group g) with
  | Some v => parse v
  | None => None
  end.

End Discovery.

End EntryPoints.

(** ** The example notebook *)

Module Notebook.

(** Python expressions, with the node names of Python's [ast]. *)
Inductive constant := CStr (s : string) | CBool (b : bool).

Inductive expr :=
| Name (id : string)
| Attribute (value : expr) (attr : string)
| Constant (c : constant)
| List_ (elts : list expr)
| Subscript (value : expr) (slice : expr)
| Call (func : expr) (args : list expr) (keywords : list (string * expr)).

Inductive stmt :=
| Import (module : string)
| Assign (target : expr) (value : expr)
| Expr (value : expr).

(** Cell outputs, by their nbformat [output_type]. *)
Inductive output :=
| execute_result (count : nat) (text : string)
| display_data (text : string)
| stream (text : string)
| error (ename evalue : string).

Record code_cell := {
  execution_count : option nat;
  source : list stmt;
  outputs : list output
}.

Definition str (s : string) : expr := Constant (CStr s).

(** The six code cells, in notebook order (markdown cells left out,
    the comment line of the third cell too). *)
Definition cells : list code_cell :=
  [ {| execution_count := Some 1;
       source := [ Import "pybamm"; Import "supercapacitors" ];
       outputs := [] |};
    {| execution_count := Some 2;
       source :=
         [ Assign (Name "model")
             (Call (Attribute (Name "supercapacitors") "Model")
                [str "VerbruggeLiu"] []) ];
       outputs := [] |};
    {| execution_count := Some 3;
       source :=
         [ Assign (Name "parameter_values")
             (Call (Attribute (Name "pybamm") "ParameterValues")
                [Subscript (Attribute (Name "supercapacitors") "parameter_sets")
                   (str "Verbrugge2005")] []) ];
       outputs := [] |};
    {| execution_count := Some 4;
       source :=
         [ Assign (Name "experiment")
             (Call (Attribute (Name "pybamm") "Experiment")
                [List_ [str "Charge at 100 A until 2.2 V";
                        str "Hold at 1.4 V for 10 seconds"]] []);
           Assign (Name "sim")
             (Call (Attribute (Name "pybamm") "Simulation")
                [Name "model"]
                [("parameter_values", Name "parameter_values");
                 ("experiment", Name "experiment");
                 ("solver",
                  Call (Attribute (Name "pybamm") "IDAKLUSolver") [] [])]);
           Expr (Call (Attribute (Name "sim") "solve") []
                   [("calc_esoh", Constant (CBool false))]) ];
       outputs :=
         [ execute_result 4
             "<pybamm.solvers.solution.Solution at 0x7f49d4aa9510>" ] |};
    {| execution_count := Some 5;
       source := [ Expr (Call (Attribute (Name "sim") "plot") [] []) ];
       outputs :=
         [ display_data
             "interactive(children=(FloatSlider(value=0.0, description='t', max=59.543980849471474, step=0.5954398084947148)…";
           execute_result 5
             "<pybamm.plotting.quick_plot.QuickPlot at 0x7f49d8f1cb10>" ] |};
    {| execution_count := None; source := []; outputs := [] |} ].

(** The statements of the notebook, in execution order. *)
Definition program : list stmt := flat_map source cells.

(** *** Syntactic analyses *)

(** Every node of an expression, the expression itself first. *)
Fixpoint nodes (e : expr) : list expr :=
  e :: match e with
       | Name _ | Constant _ => []
       | Attribute v _ => nodes v
       | List_ es => flat_map nodes es
       | Subscript v s => nodes v ++ nodes s
       | Call f args kws =>
           nodes f ++ flat_map nodes args
                   ++ flat_map (fun kw => nodes (snd kw)) kws
       end.

Definition stmt_exprs (s : stmt) : list expr :=
  match s with
  | Import _ => []
  | Assign t v => [t; v]
  | Expr v => [v]
  end.

Definition stmt_nodes (s : stmt) : list expr :=
  flat_map nodes (stmt_exprs s).

(** The name an access path starts from. *)
Fixpoint root (e : expr) : option string :=
  match e with
  | Name x => Some x
  | Attribute v _ => root v
  | Subscript v _ => root v
  | Call f _ _ => root f
  | Constant _ | List_ _ => None
  end.

(** Where a name comes from: the package itself or its host. *)
Inductive origin := Host | Repo.

Definition origin_eqb (a b : origin) : bool :=
  match a, b with
  | Host, Host | Repo, Repo => true
  | _, _ => false
  end.

Definition env : Type := list (string * origin).

Definition import_origin (m : string) : option origin :=
  if String.eqb m Pyproject.name then Some Repo
  else if in_dec string_dec m Pyproject.dependencies then Some Host
  else None.

Definition origin_of (rho : env) (e : expr) : option origin :=
  match root e with
  | Some x => EntryPoints.lookup x rho
  | None => None
  end.

(** The bindings a statement adds. *)
Definition bind (rho : env) (s : stmt) : env :=
  match s with
  | Import m =>
      match import_origin m with
      | Some o => (m, o) :: rho
      | None => rho
      end
  | Assign (Name x) v =>
      match origin_of rho v with
      | Some o => (x, o) :: rho
      | None => rho
      end
  | _ => rho
  end.

(** Each statement with the bindings in force before it. *)
Fixpoint scan (rho : env) (p : list stmt) : list (env * stmt) :=
  match p with
  | [] => []
  | s :: rest => (rho, s) :: scan (bind rho s) rest
  end.

(** The two by-name lookups of the package, as (group, name). *)
Definition lookup_of (e : expr) : option (string * string) :=
  match e with
  | Call (Attribute (Name pkg) "Model") [Constant (CStr n)] [] =>
      if String.eqb pkg Pyproject.name then Some ("models", n) else None
  | Subscript (Attribute (Name pkg) "parameter_sets") (Constant (CStr n)) =>
      if String.eqb pkg Pyproject.name then Some ("parameter_sets", n)
      else None
  | _ => None
  end.

Fixpoint somes {A : Type} (l : list (option A)) : list A :=
  match l with
  | [] => []
  | Some a :: rest => a :: somes rest
  | None :: rest => somes rest
  end.

Definition lookups : list (string * string) :=
  somes (map lookup_of (flat_map stmt_nodes program)).

(** The attributes read off the package module. *)
Definition package_attr (e : expr) : option string :=
  match e with
  | Attribute (Name pkg) a =>
      if String.eqb pkg Pyproject.name then Some a else None
  | _ => None
  end.

Definition package_attrs : list string :=
  somes (map package_attr (flat_map stmt_nodes program)).




(** A statement writes into an object when its target is not a plain
    name, rebinds when the name is bound already. *)
Definition writes_into (rho : env) (s : stmt) : bool :=
  match s with
  | Assign (Name x) _ =>
      match EntryPoints.lookup x rho with Some _ => true | None => false end
  | Assign _ _ => true
  | _ => false
  end.

(** A method call whose receiver is a variable bound to something the
    package returned (the package module itself is not a variable). *)
Definition method_on_repo (rho : env) (e : expr) : bool :=
  match e with
  | Call (Attribute v _) _ _ =>
      match root v, origin_of rho v with
      | Some x, Some Repo => negb (String.eqb x Pyproject.name)
      | _, _ => false
      end
  | _ => false
  end.

Definition touches (rs : env * stmt) : bool :=
  writes_into (fst rs) (snd rs)
  || existsb (method_on_repo (fst rs)) (stmt_nodes (snd rs)).

Definition is_error (o : output) : bool :=
  match o with error _ _ => true | _ => false end.

Definition counts : list (option nat) := map execution_count cells.

End Notebook.

(** ** The rest of the metadata *)

Module Metadata.

(** [[project] requires-python]. *)
Definition requires_python : string := ">=3.8".

(** [[project] classifiers], in file order. *)
Definition classifiers : list string :=
  [ "Development Status :: 1 - Planning";
    "Intended Audience :: Science/Research";
    "Intended Audience :: Developers";
    "License :: OSI Approved :: BSD License";
    "Operating System :: OS Independent";
    "Programming Language :: Python";
    "Programming Language :: Python :: 3";
    "Programming Language :: Python :: 3 :: Only";
    "Programming Language :: Python :: 3.8";
    "Programming Language :: Python :: 3.9";
    "Programming Language :: Python :: 3.10";
    "Programming Language :: Python :: 3.11";
    "Topic :: Scientific/Engineering" ].

(** [[tool.hatch] envs.default.dependencies]. *)
Definition hatch_env_dependencies : list string := ["pybamm"].

(** [[tool.hatch.version] path]. *)
Definition hatch_version_path : string := "src/supercapacitors/__init__.py".

(** [[tool.coverage] run.source]. *)
Definition coverage_source : list string := ["supercapacitors"].

(** [[tool.ruff] select]; the two entries commented out in the file
    ([ARG], [RET]) are not part of the list. *)
Definition ruff_select : list string :=
  [ "E"; "F"; "W"; "B"; "I"; "C4"; "EM"; "ICN"; "ISC"; "G"; "PGH"; "PIE";
    "PL"; "PT"; "PTH"; "RUF"; "SIM"; "T20"; "UP"; "YTT"; "EXE"; "NPY";
    "PD" ].

(** [[tool.ruff] src], [unfixable] and [ignore]. *)
Definition ruff_src : list string := ["src"].

Definition ruff_unfixable : list string := ["T20"; "F841"].

Definition ruff_ignore : list string :=
  ["E741"; "E501"; "PLR2004"; "PLR0915"].

(** The notebook's [metadata.language_info.version]. *)
Definition notebook_python : string := "3.11.6".

End Metadata.

(** ** Strings of the metadata: versions, requirement names, paths *)

Module Text.

(** The pieces of a string between occurrences of a separator, as
    Python's [str.split(sep)]. *)
Fixpoint split_on (c : ascii) (s : string) : list string :=
  match s with
  | EmptyString => [EmptyString]
  | String a rest =>
      if Ascii.eqb a c then EmptyString :: split_on c rest
      else match split_on c rest with
           | h :: t => String a h :: t
           | [] => [String a EmptyString]
           end
  end.

(** What is left of [s] after the prefix [p], when [s] starts with it. *)
Fixpoint strip_prefix (p s : string) : option string :=
  match p, s with
  | EmptyString, _ => Some s
  | String a p', String b s' =>
      if Ascii.eqb a b then strip_prefix p' s' else None
  | String _ _, EmptyString => None
  end.

Fixpoint all_some {A : Type} (l : list (option A)) : option (list A) :=
  match l with
  | [] => Some []
  | Some a :: rest => option_map (cons a) (all_some rest)
  | None :: _ => None
  end.

Definition number (s : string) : option nat :=
  option_map Nat.of_uint (DecimalString.NilZero.uint_of_string s).

(** The release segment of a version, [3.11.6] as [[3; 11; 6]]. *)
Definition release (v : string) : option (list nat) :=
  all_some (map number (split_on "." v)).

(** Releases compare component by component, missing components
    counting as zero. *)
Fixpoint release_leb (a b : list nat) : bool :=
  match a, b with
  | [], _ => true
  | x :: a', [] => Nat.eqb x 0 && release_leb a' []
  | x :: a', y :: b' =>
      if Nat.ltb x y then true
      else if Nat.eqb x y then release_leb a' b'
      else false
  end.

(** Whether a release meets a specifier of the one form the metadata
    uses, [>=V]; other specifiers are not read. *)
Definition meets (spec : string) (r : list nat) : option bool :=
  match strip_prefix ">=" spec with
  | Some bound =>
      match release bound with
      | Some b => Some (release_leb b r)
      | None => None
      end
  | None => None
  end.

Definition satisfies (spec v : string) : option bool :=
  match release v with
  | Some r => meets spec r
  | None => None
  end.

(** The Python version a trove classifier names, if it names one. *)
Definition classifier_python (c : string) : option (list nat) :=
  match strip_prefix "Programming Language :: Python :: " c with
  | Some v => release v
  | None => None
  end.

Definition is_name_char (a : ascii) : bool :=
  let n := nat_of_ascii a in
  (Nat.leb 48 n && Nat.leb n 57) || (Nat.leb 65 n && Nat.leb n 90)
  || (Nat.leb 97 n && Nat.leb n 122)
  || Ascii.eqb a "-" || Ascii.eqb a "_" || Ascii.eqb a ".".

(** The distribution a requirement asks for: its leading run of name
    characters, before any extras, specifier or blank. *)
Fixpoint requirement_name (s : string) : string :=
  match s with
  | EmptyString => EmptyString
  | String a rest =>
      if is_name_char a then String a (requirement_name rest)
      else EmptyString
  end.

(** The last component of a path and what precedes it. *)
Definition basename (path : string) : string :=
  last (split_on "/" path) EmptyString.

Definition dirname (path : string) : string :=
  String.concat "/" (removelast (split_on "/" path)).

(** The top-level package of a dotted module path. *)
Definition top_level (m : string) : string :=
  hd EmptyString (split_on "." m).

Definition is_digit (a : ascii) : bool :=
  let n := nat_of_ascii a in Nat.leb 48 n && Nat.leb n 57.

(** The ASCII word characters: letters, digits and the underscore. *)
Definition is_word_char (a : ascii) : bool :=
  let n := nat_of_ascii a in
  is_digit a || (Nat.leb 65 n && Nat.leb n 90)
  || (Nat.leb 97 n && Nat.leb n 122) || Ascii.eqb a "_".

Fixpoint all_chars (f : ascii -> bool) (s : string) : bool :=
  match s with
  | EmptyString => true
  | String a rest => f a && all_chars f rest
  end.

(** An ASCII Python identifier: word characters, the first not a digit. *)
Definition identifier (s : string) : bool :=
  match s with
  | EmptyString => false
  | String a rest => negb (is_digit a) && all_chars is_word_char s
  end.

(** A dotted path of identifiers, as a module path is. *)
Definition dotted_name (m : string) : bool :=
  forallb identifier (split_on "." m).

End Text.

(** ** Names read and bound by the notebook *)

Module Scope.

Import Notebook.

Definition name_of (e : expr) : option string :=
  match e with
  | Name x => Some x
  | _ => None
  end.

(** The names an expression reads: its [Name] nodes. *)
Definition reads (e : expr) : list string := somes (map name_of (nodes e)).

(** An assignment to a plain name reads its right-hand side only; any
    other target is read as well. *)
Definition stmt_reads (s : stmt) : list string :=
  match s with
  | Import _ => []
  | Assign (Name _) v => reads v
  | Assign t v => (reads t ++ reads v)%list
  | Expr v => reads v
  end.

Definition stmt_binds (s : stmt) : list string :=
  match s with
  | Import m => [m]
  | Assign (Name x) _ => [x]
  | _ => []
  end.

Definition mem (x : string) (l : list string) : bool :=
  existsb (String.eqb x) l.

(** The names read before anything bound them, given those bound at the
    start. *)
Fixpoint unbound (defined : list string) (p : list stmt) : list string :=
  match p with
  | [] => []
  | s :: rest =>
      (filter (fun x => negb (mem x defined)) (stmt_reads s)
       ++ unbound (stmt_binds s ++ defined) rest)%list
  end.

Definition result_count (o : output) : option nat :=
  match o with
  | execute_result k _ => Some k
  | _ => None
  end.

(** The execution counts stamped on the results a cell displays. *)
Definition result_counts (c : code_cell) : list nat :=
  somes (map result_count (outputs c)).

(** A cell displays a result when its last statement is an expression. *)
Definition ends_in_expr (c : code_cell) : bool :=
  match List.rev (source c) with
  | Expr _ :: _ => true
  | _ => false
  end.

End Scope.

(** * Properties *)

(** ** Reading entry points *)

Section DiscoveryFacts.

Import EntryPoints.

Lemma break_colon_join (m a : string) :
  has_colon m = false -> break_colon (m ++ ":" ++ a) = Some (m, a).
Proof.
  induction m as [| c m IH]; intro Hm; simpl in *.
  - reflexivity.
  - destruct (Ascii.eqb c ":") eqn:E; [discriminate |].
    rewrite (IH Hm). reflexivity.
Qed.

Lemma parse_join (m a : string) :
  has_colon m = false -> m <> "" -> a <> "" ->
  parse (m ++ ":" ++ a) = Some {| module := m; attr := a |}.
Proof.
  intros Hm Hne Ha. unfold parse. rewrite (break_colon_join m a Hm).
  destruct m; [congruence |]. destruct a; [congruence | reflexivity].
Qed.

Lemma registered_In (r : registry) (g n : string) :
  registered r g n = true <-> In n (names r g).
Proof.
  unfold registered. destruct (in_dec string_dec n (names r g)); split;
    intros; (assumption || reflexivity || discriminate || contradiction).
Qed.

Lemma lookup_In {A : Type} (k : string) (t : list (string * A)) (v : A) :
  lookup k t = Some v -> In (k, v) t.
Proof.
  induction t as [| [k' v'] t IH]; simpl; [discriminate |].
  destruct (String.eqb k k') eqn:E.
  - apply String.eqb_eq in E. intros [= ->]. subst. now left.
  - intro H. right. now apply IH.
Qed.

(** A name that resolves is a registered one. *)
Lemma resolve_registered (r : registry) (g n : string) (t : target) :
  resolve r g n = Some t -> registered r g n = true.
Proof.
  unfold resolve. destruct (lookup n (group r g)) as [v |] eqn:E;
    [| discriminate].
  intros _. apply registered_In. unfold names, keys.
  apply lookup_In in E. change n with (fst (n, v)). now apply in_map.
Qed.

End DiscoveryFacts.

(** ** The registered names *)

Section Registered.

Import EntryPoints.

Let r := Pyproject.entry_points.

Lemma registered_cases (g n : string) :
  registered r g n = true ->
  (g = "parameter_sets"
   /\ (n = "Chen2020" \/ n = "Verbrugge2005" \/ n = "Iamrod2024"))
  \/ (g = "models"
      /\ (n = "SPM" \/ n = "BasicReservoir" \/ n = "VerbruggeLiu")).
Proof.
  intro H. apply registered_In in H.
  unfold names, group, r, Pyproject.entry_points in H.
  cbn [lookup] in H.
  destruct (String.eqb_spec g "parameter_sets") as [-> | _].
  - left. split; [reflexivity |]. simpl in H.
    destruct H as [<- | [<- | [<- | []]]]; tauto.
  - destruct (String.eqb_spec g "models") as [-> | _]; [| destruct H].
    right. split; [reflexivity |]. simpl in H.
    destruct H as [<- | [<- | [<- | []]]]; tauto.
Qed.

(** C1: the metadata registers exactly three models, under the names
    SPM, BasicReservoir and VerbruggeLiu: these are the names of group
    [models], none is repeated, and a name is registered in that group
    exactly when it is one of the three. *)
Theorem models_registered_exactly :
  names r "models" = ["SPM"; "BasicReservoir"; "VerbruggeLiu"]
  /\ NoDup (names r "models")
  /\ forall n : string,
       registered r "models" n = true
       <-> n = "SPM" \/ n = "BasicReservoir" \/ n = "VerbruggeLiu".
Proof.
  split; [reflexivity |]. split.
  - repeat constructor; simpl; intuition discriminate.
  - intro n. split.
    + intro H. destruct (registered_cases _ _ H) as [[E _] | [_ Hn]];
        [discriminate E | exact Hn].
    + intros [-> | [-> | ->]]; reflexivity.
Qed.

(** C2: the metadata registers exactly three parameter sets, under the
    names Chen2020, Verbrugge2005 and Iamrod2024: these are the names of
    group [parameter_sets], none is repeated, and a name is registered
    in that group exactly when it is one of the three. *)
Theorem parameter_sets_registered_exactly :
  names r "parameter_sets" = ["Chen2020"; "Verbrugge2005"; "Iamrod2024"]
  /\ NoDup (names r "parameter_sets")
  /\ forall n : string,
       registered r "parameter_sets" n = true
       <-> n = "Chen2020" \/ n = "Verbrugge2005" \/ n = "Iamrod2024".
Proof.
  split; [reflexivity |]. split.
  - repeat constructor; simpl; intuition discriminate.
  - intro n. split.
    + intro H. destruct (registered_cases _ _ H) as [[_ Hn] | [E _]];
        [exact Hn | discriminate E].
    + intros [-> | [-> | ->]]; reflexivity.
Qed.

(** The value of each entry is its module, a colon and its attribute. *)
Lemma resolve_model (n : string) :
  registered r "models" n = true ->
  resolve r "models" n
  = Some {| module := "supercapacitors.models.input." ++ n; attr := n |}.
Proof.
  intro H. destruct (registered_cases _ _ H) as [[E _] | [_ Hn]];
    [discriminate E |].
  destruct Hn as [-> | [-> | ->]]; unfold resolve;
    cbn [r Pyproject.entry_points group lookup String.eqb Ascii.eqb
         Bool.eqb Pyproject.models];
    match goal with
    | |- parse ?v = Some {| module := ?m; attr := ?a |} =>
        change v with (m ++ ":" ++ a); apply parse_join;
        [reflexivity | discriminate | discriminate]
    end.
Qed.

Lemma resolve_parameter_set (p : string) :
  registered r "parameter_sets" p = true ->
  resolve r "parameter_sets" p
  = Some {| module := "supercapacitors.parameters.input." ++ p;
            attr := "get_parameter_values" |}.
Proof.
  intro H. destruct (registered_cases _ _ H) as [[_ Hn] | [E _]];
    [| discriminate E].
  destruct Hn as [-> | [-> | ->]]; unfold resolve;
    cbn [r Pyproject.entry_points group lookup String.eqb Ascii.eqb
         Bool.eqb Pyproject.parameter_sets];
    match goal with
    | |- parse ?v = Some {| module := ?m; attr := ?a |} =>
        change v with (m ++ ":" ++ a); apply parse_join;
        [reflexivity | discriminate | discriminate]
    end.
Qed.

(** C8: the naming convention of the entry points is uniform.  A name N
    registered in a group is either a model name, resolving to the class
    N of module [supercapacitors.models.input.N], or a parameter-set
    name, resolving to the function [get_parameter_values] of module
    [supercapacitors.parameters.input.N]. *)
Theorem entry_point_naming_convention (g n : string) :
  registered r g n = true ->
  (g = "models"
   /\ resolve r g n
      = Some {| module := "supercapacitors.models.input." ++ n;
                attr := n |})
  \/ (g = "parameter_sets"
      /\ resolve r g n
         = Some {| module := "supercapacitors.parameters.input." ++ n;
                   attr := "get_parameter_values" |}).
Proof.
  intro H. destruct (registered_cases _ _ H) as [[-> _] | [-> _]].
  - right. split; [reflexivity | now apply resolve_parameter_set].
  - left. split; [reflexivity | now apply resolve_model].
Qed.

Lemma entry_point_naming_convention_witness :
  registered r "models" "BasicReservoir" = true
  /\ ((("models" = "models")
       /\ resolve r "models" "BasicReservoir"
          = Some {| module := "supercapacitors.models.input."
                              ++ "BasicReservoir";
                    attr := "BasicReservoir" |})
      \/ ("models" = "parameter_sets"
          /\ resolve r "models" "BasicReservoir"
             = Some {| module := "supercapacitors.parameters.input."
                                 ++ "BasicReservoir";
                       attr := "get_parameter_values" |})).
Proof.
  split; [reflexivity |].
  apply (entry_point_naming_convention "models" "BasicReservoir").
  reflexivity.
Defined.

End Registered.

(** ** What the notebook does *)

Section NotebookFacts.

Import EntryPoints Notebook.

Let r := Pyproject.entry_points.

(** The code cells were run top to bottom, once each; the last is empty
    and was not run. *)
Lemma cells_ran_in_order :
  counts = [Some 1; Some 2; Some 3; Some 4; Some 5; None].
Proof. reflexivity. Qed.

(** No cell recorded a traceback. *)
Lemma no_error_output :
  existsb is_error (flat_map outputs cells) = false.
Proof. reflexivity. Qed.

(** The names in force after the last statement, newest first. *)
Lemma final_bindings :
  fold_left bind program []
  = [ ("sim", Host); ("experiment", Host); ("parameter_values", Host);
      ("model", Repo); ("supercapacitors", Repo); ("pybamm", Host) ].
Proof. reflexivity. Qed.

(** The package is reached through two attributes, each time for a
    lookup by a string literal. *)
Lemma package_accesses :
  package_attrs = ["Model"; "parameter_sets"]
  /\ lookups = [("models", "VerbruggeLiu"); ("parameter_sets", "Verbrugge2005")].
Proof. split; reflexivity. Qed.

Lemma lookups_registered (g n : string) :
  In (g, n) lookups -> registered r g n = true.
Proof.
  intros [[= <- <-] | [[= <- <-] | []]]; reflexivity.
Qed.

(** Every import is of the package itself or of a declared dependency. *)
Lemma imports_known :
  forallb
    (fun s => match s with
              | Import m =>
                  match import_origin m with Some _ => true | None => false end
              | _ => true
              end) program = true.
Proof. reflexivity. Qed.


Lemma nothing_touched : existsb touches (scan [] program) = false.
Proof. reflexivity. Qed.



End NotebookFacts.

(** * Further properties of the metadata and the notebook *)

(** ** The registry as a whole *)

Section RegistryFacts.

Import EntryPoints Text.

Let r := Pyproject.entry_points.

Ltac registration H :=
  let R := fresh "R" in
  pose proof (resolve_registered _ _ _ _ H) as R;
  destruct (registered_cases _ _ R)
    as [[-> [-> | [-> | ->]]] | [-> [-> | [-> | ->]]]];
  clear R; vm_compute in H.

(** X1: every value the metadata registers is well formed: it is a
    dotted path of identifiers, one colon and one identifier, and nothing
    else (no blank, no second colon, no extras); the name resolves to
    exactly that module and that attribute. *)
Theorem registered_values_well_formed (g n v : string) :
  lookup n (group r g) = Some v ->
  exists t : target,
    resolve r g n = Some t
    /\ v = module t ++ ":" ++ attr t
    /\ dotted_name (module t) = true
    /\ identifier (attr t) = true.
Proof.
  intro H.
  assert (R : registered r g n = true).
  { apply registered_In. unfold names, keys.
    apply lookup_In in H. change n with (fst (n, v)). now apply in_map. }
  destruct (registered_cases _ _ R)
    as [[-> [-> | [-> | ->]]] | [-> [-> | [-> | ->]]]];
    vm_compute in H; injection H as <-;
    eexists; (split; [reflexivity |]); repeat split; reflexivity.
Qed.

(** X2: a name resolves in a group exactly when the group registers it:
    an unknown name, a name in another spelling, or any name of a group
    the metadata does not declare resolves to nothing, and no registered
    value is malformed. *)
Theorem resolve_iff_registered (g n : string) :
  resolve r g n = None <-> registered r g n = false.
Proof.
  unfold r. split.
  - intro H. destruct (registered _ g n) eqn:R; [| reflexivity].
    destruct (registered_cases _ _ R) as [[-> _] | [-> _]].
    + rewrite (resolve_parameter_set n R) in H. discriminate.
    + rewrite (resolve_model n R) in H. discriminate.
  - intro H. destruct (resolve _ g n) as [t |] eqn:E; [| reflexivity].
    rewrite (resolve_registered _ _ _ _ E) in H. discriminate.
Qed.

(** X3: the two groups share no name: a name that resolves at all
    resolves in one group only. *)
Theorem name_spaces_disjoint (g g' n : string) :
  resolve r g n <> None -> resolve r g' n <> None -> g = g'.
Proof.
  intros H H'.
  destruct (resolve r g n) as [t |] eqn:E; [| congruence].
  destruct (resolve r g' n) as [t' |] eqn:E'; [| congruence].
  clear H H'.
  pose proof (resolve_registered _ _ _ _ E) as R.
  pose proof (resolve_registered _ _ _ _ E') as R'.
  destruct (registered_cases _ _ R) as [[-> Hn] | [-> Hn]];
    destruct (registered_cases _ _ R') as [[-> Hn'] | [-> Hn']];
    try reflexivity;
    destruct Hn as [-> | [-> | ->]];
    destruct Hn' as [E0 | [E0 | E0]]; discriminate E0.
Qed.

(** X4: no two registrations name the same object: registrations that
    resolve to one target have the same group and the same name. *)
Theorem resolve_injective (g n g' n' : string) (t : target) :
  resolve r g n = Some t -> resolve r g' n' = Some t ->
  g = g' /\ n = n'.
Proof.
  intros H H'. registration H; registration H';
    injection H as <-;
    first [discriminate H' | split; reflexivity].
Qed.

(** X5: every entry point points into the package the wheel ships: the
    top-level package of its module is the project's own name, which is
    the directory name of a wheel package. *)
Theorem targets_in_shipped_package (g n : string) (t : target) :
  resolve r g n = Some t ->
  top_level (module t) = Pyproject.name
  /\ exists p : string,
       In p Pyproject.wheel_packages /\ basename p = top_level (module t).
Proof.
  intro H. registration H; injection H as <-;
    (split; [reflexivity |]);
    exists "src/supercapacitors"; (split; [now left | reflexivity]).
Qed.

End RegistryFacts.

Section RegistryInstances.

Import EntryPoints Text.

Let r := Pyproject.entry_points.

Lemma registered_values_well_formed_witness :
  lookup "VerbruggeLiu" (group r "models")
  = Some "supercapacitors.models.input.VerbruggeLiu:VerbruggeLiu"
  /\ exists t : target,
       resolve r "models" "VerbruggeLiu" = Some t
       /\ "supercapacitors.models.input.VerbruggeLiu:VerbruggeLiu"
          = module t ++ ":" ++ attr t
       /\ dotted_name (module t) = true
       /\ identifier (attr t) = true.
Proof.
  split; [reflexivity |].
  apply (registered_values_well_formed "models" "VerbruggeLiu"
           "supercapacitors.models.input.VerbruggeLiu:VerbruggeLiu").
  reflexivity.
Defined.

Lemma name_spaces_disjoint_witness :
  resolve r "parameter_sets" "Chen2020" <> None
  /\ "parameter_sets" = "parameter_sets".
Proof.
  assert (H : resolve r "parameter_sets" "Chen2020" <> None)
    by (vm_compute; discriminate).
  split; [exact H |].
  exact (name_spaces_disjoint "parameter_sets" "parameter_sets" "Chen2020"
           H H).
Defined.

Lemma resolve_injective_witness :
  resolve r "models" "SPM"
  = Some {| module := "supercapacitors.models.input.SPM"; attr := "SPM" |}
  /\ "models" = "models" /\ "SPM" = "SPM".
Proof.
  split; [reflexivity |].
  apply (resolve_injective "models" "SPM" "models" "SPM"
           {| module := "supercapacitors.models.input.SPM"; attr := "SPM" |});
    reflexivity.
Defined.

Lemma targets_in_shipped_package_witness :
  resolve r "parameter_sets" "Iamrod2024"
  = Some {| module := "supercapacitors.parameters.input.Iamrod2024";
            attr := "get_parameter_values" |}
  /\ top_level "supercapacitors.parameters.input.Iamrod2024"
     = Pyproject.name.
Proof.
  split; [reflexivity |].
  exact (proj1 (targets_in_shipped_package "parameter_sets" "Iamrod2024"
                  {| module := "supercapacitors.parameters.input.Iamrod2024";
                     attr := "get_parameter_values" |} eq_refl)).
Defined.

End RegistryInstances.

(** ** Names and results in the notebook *)

Section ScopeFacts.

Import Notebook Scope.

Lemma mem_In (x : string) (l : list string) : mem x l = true <-> In x l.
Proof.
  unfold mem. rewrite existsb_exists. split.
  - intros (y & Hy & E). apply String.eqb_eq in E. now subst.
  - intro H. exists x. split; [exact H | apply String.eqb_refl].
Qed.

(** When nothing is reported unbound, every statement finds the names it
    reads among those given at the start or bound by the statements
    before it. *)
Lemma unbound_sound (before : list stmt) :
  forall (d : list string) (p after : list stmt) (s : stmt) (x : string),
    unbound d p = [] -> p = (before ++ s :: after)%list ->
    In x (stmt_reads s) ->
    In x d \/ In x (flat_map stmt_binds before).
Proof.
  induction before as [| b before IH]; intros d p after s x Hu -> Hx;
    simpl in Hu; apply app_eq_nil in Hu; destruct Hu as [Hf Hr].
  - left. apply mem_In. destruct (mem x d) eqn:E; [reflexivity |].
    assert (Hin : In x (filter (fun y => negb (mem y d)) (stmt_reads s)))
      by (apply filter_In; split; [exact Hx | now rewrite E]).
    rewrite Hf in Hin. destruct Hin.
  - destruct (IH _ _ after s x Hr eq_refl Hx) as [H | H].
    + apply in_app_or in H. destruct H as [H | H]; [| now left].
      right. simpl. apply in_or_app. now left.
    + right. simpl. apply in_or_app. now right.
Qed.

(** X6: run top to bottom, the notebook never reads a name before it is
    bound: whatever name a statement reads, an import or an assignment
    among the statements before it binds that name. *)
Theorem names_bound_before_use
  (before after : list stmt) (s : stmt) (x : string) :
  program = (before ++ s :: after)%list ->
  In x (stmt_reads s) ->
  In x (flat_map stmt_binds before).
Proof.
  intros Hp Hx.
  destruct (unbound_sound before [] program after s x eq_refl Hp Hx)
    as [[] | H].
  exact H.
Qed.

Lemma names_bound_before_use_witness :
  In "model"
    (stmt_reads
       (Assign (Name "sim")
          (Call (Attribute (Name "pybamm") "Simulation")
             [Name "model"]
             [("parameter_values", Name "parameter_values");
              ("experiment", Name "experiment");
              ("solver",
               Call (Attribute (Name "pybamm") "IDAKLUSolver") [] [])])))
  /\ In "model" (flat_map stmt_binds (firstn 5 program)).
Proof.
  split; [simpl; tauto |].
  apply (names_bound_before_use (firstn 5 program) (skipn 6 program)
           (Assign (Name "sim")
              (Call (Attribute (Name "pybamm") "Simulation")
                 [Name "model"]
                 [("parameter_values", Name "parameter_values");
                  ("experiment", Name "experiment");
                  ("solver",
                   Call (Attribute (Name "pybamm") "IDAKLUSolver") [] [])]))
           "model").
  - reflexivity.
  - simpl; tauto.
Defined.

(** X7: the outputs saved in the notebook are those of one clean run from
    top to bottom.  The cells carry the execution counts 1 to 5 in
    document order and the last, empty cell none; a cell displays a
    result, stamped with the cell's own count, exactly when it was run
    and its last statement is an expression; a cell that was not run has
    neither source nor output. *)
Theorem recorded_run_is_consistent :
  counts = (map Some (seq 1 5) ++ [None])%list
  /\ forall c : code_cell,
       In c cells ->
       result_counts c
       = match execution_count c with
         | Some k => if ends_in_expr c then [k] else []
         | None => []
         end
       /\ (execution_count c = None -> source c = [] /\ outputs c = []).
Proof.
  split; [reflexivity |].
  intros c Hc. simpl in Hc.
  repeat (destruct Hc as [<- | Hc];
          [split; [reflexivity | simpl; intro E; try discriminate E; now split]
          |]).
  destruct Hc.
Qed.

Lemma recorded_run_is_consistent_witness :
  result_counts
    (nth 3 cells {| execution_count := None; source := []; outputs := [] |})
  = [4].
Proof.
  refine (eq_trans
            (proj1 (proj2 recorded_run_is_consistent
                      (nth 3 cells {| execution_count := None; source := [];
                                      outputs := [] |}) _)) _).
  - simpl; tauto.
  - reflexivity.
Defined.

End ScopeFacts.

(** ** Versions, tooling and layout *)

Section MetadataFacts.

Import Metadata Text.

Lemma release_leb_refl (a : list nat) : release_leb a a = true.
Proof.
  induction a as [| x a IH]; simpl; [reflexivity |].
  rewrite Nat.ltb_irrefl, Nat.eqb_refl. exact IH.
Qed.

(** A release of zeros only is below every release. *)
Lemma release_leb_zero (a c : list nat) :
  release_leb a [] = true -> release_leb a c = true.
Proof.
  revert c. induction a as [| x a IH]; intros c H; simpl in *;
    [reflexivity |].
  apply andb_true_iff in H. destruct H as [Hx Ha].
  apply Nat.eqb_eq in Hx. subst x. destruct c as [| z c]; simpl.
  - exact Ha.
  - destruct z as [| z]; simpl; [now apply IH | reflexivity].
Qed.

Lemma release_leb_trans (a : list nat) :
  forall b c : list nat,
    release_leb a b = true -> release_leb b c = true ->
    release_leb a c = true.
Proof.
  induction a as [| x a IH]; intros b c Hab Hbc; [reflexivity |].
  destruct b as [| y b].
  - now apply release_leb_zero.
  - simpl in Hab. destruct c as [| z c].
    + simpl in Hbc. apply andb_true_iff in Hbc. destruct Hbc as [Hy Hb].
      apply Nat.eqb_eq in Hy. subst y.
      destruct (Nat.ltb_spec x 0) as [Hlt | _]; [lia |].
      destruct (Nat.eqb_spec x 0) as [-> | _]; [| discriminate].
      simpl. now apply (IH b []).
    + simpl in Hbc. simpl.
      destruct (Nat.ltb_spec x y) as [Hxy | Hxy].
      * destruct (Nat.ltb_spec y z) as [Hyz | Hyz].
        -- destruct (Nat.ltb_spec x z); [reflexivity | lia].
        -- destruct (Nat.eqb_spec y z) as [-> | _]; [| discriminate].
           destruct (Nat.ltb_spec x z); [reflexivity | lia].
      * destruct (Nat.eqb_spec x y) as [-> | _]; [| discriminate].
        destruct (Nat.ltb_spec y z) as [Hyz | Hyz]; [reflexivity |].
        destruct (Nat.eqb_spec y z) as [-> | _]; [| discriminate].
        now apply (IH b c).
Qed.

(** X8: the Python versions of the metadata agree with one another and
    with the notebook.  Every classifier that names a minor version of
    Python names one that [requires-python] admits; the bound of
    [requires-python] is itself one of the classified versions; and the
    Python the notebook was saved from is admitted, its minor version
    being a classified one. *)
Theorem python_versions_agree :
  (forall (c : string) (major minor : nat) (rest : list nat),
      In c classifiers ->
      classifier_python c = Some (major :: minor :: rest) ->
      meets requires_python (major :: minor :: rest) = Some true)
  /\ (exists (c bound : string),
         In c classifiers
         /\ strip_prefix ">=" requires_python = Some bound
         /\ classifier_python c = release bound)
  /\ satisfies requires_python notebook_python = Some true
  /\ (exists c : string,
         In c classifiers
         /\ option_map (firstn 2) (release notebook_python)
            = classifier_python c).
Proof.
  split.
  { intros c major minor rest Hc H. simpl in Hc.
    repeat (destruct Hc as [<- | Hc];
            [vm_compute in H; try discriminate H;
             injection H as <- <- <-; reflexivity |]).
    destruct Hc. }
  split.
  { exists "Programming Language :: Python :: 3.8", "3.8".
    split; [simpl; tauto | split; reflexivity]. }
  split; [reflexivity |].
  exists "Programming Language :: Python :: 3.11".
  split; [simpl; tauto | reflexivity].
Qed.

Lemma python_versions_agree_witness :
  In "Programming Language :: Python :: 3.10" classifiers
  /\ classifier_python "Programming Language :: Python :: 3.10"
     = Some [3; 10]
  /\ meets requires_python [3; 10] = Some true.
Proof.
  assert (H : In "Programming Language :: Python :: 3.10" classifiers)
    by (simpl; tauto).
  split; [exact H |]. split; [reflexivity |].
  exact (proj1 python_versions_agree
           "Programming Language :: Python :: 3.10" 3 10 [] H eq_refl).
Defined.

(** X9: what [requires-python] admits is closed upwards: a release at
    least as large as an admitted one is admitted too, whatever the
    number of components either is written with. *)
Theorem requires_python_upward_closed (v w : list nat) :
  meets requires_python v = Some true ->
  release_leb v w = true ->
  meets requires_python w = Some true.
Proof.
  unfold meets. destruct (strip_prefix ">=" requires_python) as [b |];
    [| discriminate].
  destruct (release b) as [rb |]; [| discriminate].
  intros [= Hv] Hw. f_equal. exact (release_leb_trans rb v w Hv Hw).
Qed.

Lemma requires_python_upward_closed_witness :
  meets requires_python [3; 8] = Some true
  /\ release_leb [3; 8] [3; 11; 6] = true
  /\ meets requires_python [3; 11; 6] = Some true.
Proof.
  split; [reflexivity |]. split; [reflexivity |].
  apply (requires_python_upward_closed [3; 8] [3; 11; 6]); reflexivity.
Defined.

(** X10: the linter's exceptions are exceptions to something: every rule
    code listed under [ignore] or [unfixable] falls under a rule family
    listed under [select]. *)
Theorem ruff_exceptions_are_selected (c : string) :
  In c (ruff_ignore ++ ruff_unfixable)%list ->
  exists f : string, In f ruff_select /\ String.prefix f c = true.
Proof.
  intro H. simpl in H.
  destruct H as [<- | [<- | [<- | [<- | [<- | [<- | []]]]]]].
  - exists "E". split; [simpl; tauto | reflexivity].
  - exists "E". split; [simpl; tauto | reflexivity].
  - exists "PL". split; [simpl; tauto | reflexivity].
  - exists "PL". split; [simpl; tauto | reflexivity].
  - exists "T20". split; [simpl; tauto | reflexivity].
  - exists "F". split; [simpl; tauto | reflexivity].
Qed.

Lemma ruff_exceptions_are_selected_witness :
  In "PLR2004" (ruff_ignore ++ ruff_unfixable)%list
  /\ exists f : string, In f ruff_select /\ String.prefix f "PLR2004" = true.
Proof.
  assert (H : In "PLR2004" (ruff_ignore ++ ruff_unfixable)%list)
    by (simpl; tauto).
  split; [exact H | exact (ruff_exceptions_are_selected "PLR2004" H)].
Defined.

(** X11: the tools look where the package is.  Each package of the wheel
    is a directory named as the project, lying in a source root of the
    linter; the file the version is read from is that package's
    [__init__.py]; and the package is what coverage measures. *)
Theorem source_layout_agrees (p : string) :
  In p Pyproject.wheel_packages ->
  basename p = Pyproject.name
  /\ In (dirname p) ruff_src
  /\ hatch_version_path = p ++ "/__init__.py"
  /\ In (basename p) coverage_source.
Proof.
  intros [<- | []]. repeat split; simpl; tauto.
Qed.

Lemma source_layout_agrees_witness :
  In "src/supercapacitors" Pyproject.wheel_packages
  /\ basename "src/supercapacitors" = Pyproject.name.
Proof.
  assert (H : In "src/supercapacitors" Pyproject.wheel_packages)
    by (simpl; tauto).
  split; [exact H | exact (proj1 (source_layout_agrees _ H))].
Defined.

(** X12: requirements are declared once.  The default hatch environment
    installs every runtime dependency, and the distributions named by the
    runtime dependencies and by the extras [dev] and [docs] are pairwise
    distinct. *)
Theorem requirements_declared_once :
  incl Pyproject.dependencies hatch_env_dependencies
  /\ NoDup (map requirement_name
              (Pyproject.dependencies
               ++ flat_map snd Pyproject.optional_dependencies)%list).
Proof.
  split.
  - intros d [<- | []]. simpl; tauto.
  - apply (NoDup_count_occ' string_dec). intros x Hx. simpl in Hx.
    repeat (destruct Hx as [<- | Hx]; [reflexivity |]). destruct Hx.
Qed.

End MetadataFacts.

(** ** The notebook against the metadata *)

Section NotebookRegistryFacts.

Import EntryPoints Notebook.

Let r := Pyproject.entry_points.

(** X13: the example asks the package only for what the metadata
    registers.  The notebook reads two attributes off the package, [Model]
    and [parameter_sets], each once and each to look up a string literal:
    [VerbruggeLiu] as a model and [Verbrugge2005] as a parameter set; and
    every name it looks up is registered in the group it is looked up in
    and resolves to a target there. *)
Theorem notebook_asks_for_registered_names :
  package_attrs = ["Model"; "parameter_sets"]
  /\ lookups
     = [("models", "VerbruggeLiu"); ("parameter_sets", "Verbrugge2005")]
  /\ forall g n : string,
       In (g, n) lookups ->
       registered r g n = true
       /\ exists t : target, resolve r g n = Some t.
Proof.
  split; [reflexivity |]. split; [reflexivity |].
  intros g n H. split; [exact (lookups_registered g n H) |].
  destruct H as [[= <- <-] | [[= <- <-] | []]]; eexists; reflexivity.
Qed.

Lemma notebook_asks_for_registered_names_witness :
  In ("parameter_sets", "Verbrugge2005") lookups
  /\ registered r "parameter_sets" "Verbrugge2005" = true.
Proof.
  assert (H : In ("parameter_sets", "Verbrugge2005") lookups)
    by (simpl; tauto).
  split; [exact H |].
  exact (proj1 (proj2 (proj2 notebook_asks_for_registered_names)
                  "parameter_sets" "Verbrugge2005" H)).
Defined.

End NotebookRegistryFacts.
